(** * Settings components of valexa: label conversion and store access

    The three view components [DataSetting], [ProfileSetting] and
    [AdvancedSetting] bind form fields to a shared settings store through
    computed getter/setter pairs, and translate boolean settings to one of
    two localized labels with [convertTrueFalse].  This development embeds
    those computed properties and methods and settles the properties stated
    about them. *)

From Stdlib Require Import ZArith String Bool List.
From stdpp Require Import base option gmap strings fin_maps.
Import ListNotations.

Local Open Scope string_scope.

(** ** JavaScript values

    The values that reach the components: primitives, and object references
    compared by identity.  [JNum] stands for the integer-valued numbers and
    [JNaN] for the one number that is not equal to itself. *)
Module Js.

Inductive JsValue : Type :=
  | JUndefined
  | JNull
  | JBool (b : bool)
  | JNum (n : Z)
  | JNaN
  | JStr (s : string)
  | JObj (ref : positive).

(** [a === b]: no coercion, same type and same primitive value, or same
    object reference. *)
Definition strict_eq (a b : JsValue) : bool :=
  match a, b with
  | JUndefined, JUndefined => true
  | JNull, JNull => true
  | JBool x, JBool y => Bool.eqb x y
  | JNum x, JNum y => Z.eqb x y
  | JStr x, JStr y => String.eqb x y
  | JObj x, JObj y => Pos.eqb x y
  | _, _ => false
  end.

(** The truth value of [v] in a condition, [if (v)]. *)
Definition truthy (v : JsValue) : bool :=
  match v with
  | JUndefined | JNull | JNaN => false
  | JBool b => b
  | JNum n => negb (Z.eqb n 0)
  | JStr s => negb (String.eqb s EmptyString)
  | JObj _ => true
  end.

(** What a form control shows for [undefined], [null] and the empty
    string. *)
Definition blank (v : JsValue) : bool :=
  match v with
  | JUndefined | JNull => true
  | JStr s => String.eqb s EmptyString
  | _ => false
  end.

Definition is_bool (v : JsValue) : bool :=
  match v with
  | JBool _ => true
  | _ => false
  end.

End Js.
Export Js.

(** ** Component properties

    Every component declares [props: { languageText: Object, settingsName:
    String }] and reads [languageText.selectTrue] and
    [languageText.selectFalse]. *)
Record LanguageText : Type := {
  selectTrue : JsValue;
  selectFalse : JsValue
}.

Record Props : Type := {
  languageText : LanguageText;
  settingsName : string
}.

(** Labels as the localization files supply them: two strings. *)
Definition labels (t f : string) : LanguageText :=
  {| selectTrue := JStr t; selectFalse := JStr f |}.

(** ** The settings store

    The store module itself ([./store], registered in [main.js]) is consumed
    through [mapGetters(['getSettingsValue'])] and
    [mapMutations(['setSettingsValue'])].  Store operations are actions over
    the store state, so that what a read or a write leaves behind can be
    stated. *)
Abbreviation Store := (gmap (string * string) JsValue).

Definition M (A : Type) : Type := Store → A * Store.

#[global] Instance M_ret : MRet M := λ A a s, (a, s).
#[global] Instance M_bind : MBind M :=
  λ A B k m s, let '(a, s') := m s in k a s'.

Definition eval {A} (m : M A) (s : Store) : A := fst (m s).
Definition exec {A} (m : M A) (s : Store) : Store := snd (m s).

(** The object literal handed to the store.  A literal without a [value]
    property reads [undefined] there. *)
Record Payload : Type := {
  name : string;
  setting : string;
  value : JsValue
}.

(** Modelled from the spec: the getter [getSettingsValue] of the store is
    not among the sources.  "A mapping keyed by (group name, setting key) →
    value"; [get] "looks up the current value for a setting; no side
    effects; fails softly (returns undefined) if absent". *)
Definition getSettingsValue (p : Payload) : M JsValue :=
  λ s, (default JUndefined (s !! (name p, setting p)), s).

(** Modelled from the spec: the mutation [setSettingsValue] of the store is
    not among the sources.  [set] "writes a value into the store; side
    effect is visible to all observers of that (group, key) pair". *)
Definition setSettingsValue (p : Payload) : M unit :=
  λ s, (tt, <[(name p, setting p) := value p]> s).

(** A computed property with its [get ()] and [set (value)]. *)
Record Computed : Type := {
  get : Props → M JsValue;
  set : Props → JsValue → M unit
}.

(** ** DataSetting.vue *)
Module DataSetting.

Definition itemsTrueFalse (this : Props) : list JsValue :=
  [selectTrue (languageText this); selectFalse (languageText this)].

Definition convertTrueFalse (this : Props) (value toBool : JsValue) : JsValue :=
  if truthy toBool then
    JBool (strict_eq value (selectTrue (languageText this)))
  else
    if strict_eq value (JBool true) then
      selectTrue (languageText this)
    else
      selectFalse (languageText this).

Definition useMedian : Computed := {|
  get this :=
    v ← getSettingsValue {| name := settingsName this;
                            setting := "use_median";
                            value := JUndefined |};
    mret (convertTrueFalse this v JUndefined);
  set this value :=
    setSettingsValue {| name := settingsName this;
                        setting := "use_median";
                        value := convertTrueFalse this value (JBool true) |}
|}.

Definition dataTransformation : Computed := {|
  get this :=
    getSettingsValue {| name := settingsName this;
                        setting := "data_transformation";
                        value := JUndefined |};
  set this value :=
    setSettingsValue {| name := settingsName this;
                        setting := "data_transformation";
                        value := value |}
|}.

End DataSetting.

(** ** ProfileSetting.vue *)
Module ProfileSetting.

Definition itemsTrueFalse (this : Props) : list JsValue :=
  [selectTrue (languageText this); selectFalse (languageText this)].

Definition convertTrueFalse (this : Props) (value toBool : JsValue) : JsValue :=
  if truthy toBool then
    JBool (strict_eq value (selectTrue (languageText this)))
  else
    if strict_eq value (JBool true) then
      selectTrue (languageText this)
    else
      selectFalse (languageText this).

Definition toleranceLimit : Computed := {|
  get this :=
    getSettingsValue {| name := settingsName this;
                        setting := "tolerance_limit";
                        value := JUndefined |};
  set this value :=
    setSettingsValue {| name := settingsName this;
                        setting := "tolerance_limit";
                        value := value |}
|}.

Definition acceptanceLimit : Computed := {|
  get this :=
    getSettingsValue {| name := settingsName this;
                        setting := "acceptance_limit";
                        value := JUndefined |};
  set this value :=
    setSettingsValue {| name := settingsName this;
                        setting := "acceptance_limit";
                        value := value |}
|}.

Definition acceptanceAbsolute : Computed := {|
  get this :=
    v ← getSettingsValue {| name := settingsName this;
                            setting := "acceptance_absolute";
                            value := JUndefined |};
    mret (convertTrueFalse this v JUndefined);
  set this value :=
    setSettingsValue {| name := settingsName this;
                        setting := "acceptance_absolute";
                        value := convertTrueFalse this value (JBool true) |}
|}.

End ProfileSetting.

(** ** AdvancedSetting.vue *)
Module AdvancedSetting.

Definition itemsTrueFalse (this : Props) : list JsValue :=
  [selectTrue (languageText this); selectFalse (languageText this)].

Definition convertTrueFalse (this : Props) (value toBool : JsValue) : JsValue :=
  if truthy toBool then
    JBool (strict_eq value (selectTrue (languageText this)))
  else
    if strict_eq value (JBool true) then
      selectTrue (languageText this)
    else
      selectFalse (languageText this).

Definition correctionAllow : Computed := {|
  get this :=
    v ← getSettingsValue {| name := settingsName this;
                            setting := "correction_allow";
                            value := JUndefined |};
    mret (convertTrueFalse this v JUndefined);
  set this value :=
    setSettingsValue {| name := settingsName this;
                        setting := "correction_allow";
                        value := convertTrueFalse this value (JBool true) |}
|}.

Definition correctionForcedValue : Computed := {|
  get this :=
    getSettingsValue {| name := settingsName this;
                        setting := "correction_forced_value";
                        value := JUndefined |};
  set this value :=
    setSettingsValue {| name := settingsName this;
                        setting := "correction_forced_value";
                        value := value |}
|}.

Definition correctionRoundTo : Computed := {|
  get this :=
    getSettingsValue {| name := settingsName this;
                        setting := "correction_round_to";
                        value := JUndefined |};
  set this value :=
    setSettingsValue {| name := settingsName this;
                        setting := "correction_round_to";
                        value := value |}
|}.

Definition correctionThreshold : Computed := {|
  get this :=
    getSettingsValue {| name := settingsName this;
                        setting := "correction_threshold";
                        value := JUndefined |};
  set this value :=
    setSettingsValue {| name := settingsName this;
                        setting := "correction_threshold";
                        value := value |}
|}.

Definition rollingData : Computed := {|
  get this :=
    getSettingsValue {| name := settingsName this;
                        setting := "rolling_data";
                        value := JUndefined |};
  set this value :=
    setSettingsValue {| name := settingsName this;
                        setting := "rolling_data";
                        value := value |}
|}.

Definition rollingLimit : Computed := {|
  get this :=
    getSettingsValue {| name := settingsName this;
                        setting := "rollingLimit";
                        value := JUndefined |};
  set this value :=
    setSettingsValue {| name := settingsName this;
                        setting := "rollingLimit";
                        value := value |}
|}.

Definition significantFigure : Computed := {|
  get this :=
    getSettingsValue {| name := settingsName this;
                        setting := "significant_figure";
                        value := JUndefined |};
  set this value :=
    setSettingsValue {| name := settingsName this;
                        setting := "significant_figure";
                        value := value |}
|}.

Definition modelToTest : Computed := {|
  get this :=
    getSettingsValue {| name := settingsName this;
                        setting := "model_to_test";
                        value := JUndefined |};
  set this value :=
    setSettingsValue {| name := settingsName this;
                        setting := "model_to_test";
                        value := value |}
|}.

End AdvancedSetting.

(** ** The form fields of the three components

    One name per computed property bound with [v-model], the property it
    stands for, the store key it addresses, and whether it goes through
    [convertTrueFalse]. *)
Inductive Field : Type :=
  | UseMedian | DataTransformation
  | ToleranceLimit | AcceptanceLimit | AcceptanceAbsolute
  | CorrectionAllow | CorrectionForcedValue | CorrectionRoundTo
  | CorrectionThreshold | RollingData | RollingLimit
  | SignificantFigure | ModelToTest.

Definition computed (f : Field) : Computed :=
  match f with
  | UseMedian => DataSetting.useMedian
  | DataTransformation => DataSetting.dataTransformation
  | ToleranceLimit => ProfileSetting.toleranceLimit
  | AcceptanceLimit => ProfileSetting.acceptanceLimit
  | AcceptanceAbsolute => ProfileSetting.acceptanceAbsolute
  | CorrectionAllow => AdvancedSetting.correctionAllow
  | CorrectionForcedValue => AdvancedSetting.correctionForcedValue
  | CorrectionRoundTo => AdvancedSetting.correctionRoundTo
  | CorrectionThreshold => AdvancedSetting.correctionThreshold
  | RollingData => AdvancedSetting.rollingData
  | RollingLimit => AdvancedSetting.rollingLimit
  | SignificantFigure => AdvancedSetting.significantFigure
  | ModelToTest => AdvancedSetting.modelToTest
  end.

Definition key (f : Field) : string :=
  match f with
  | UseMedian => "use_median"
  | DataTransformation => "data_transformation"
  | ToleranceLimit => "tolerance_limit"
  | AcceptanceLimit => "acceptance_limit"
  | AcceptanceAbsolute => "acceptance_absolute"
  | CorrectionAllow => "correction_allow"
  | CorrectionForcedValue => "correction_forced_value"
  | CorrectionRoundTo => "correction_round_to"
  | CorrectionThreshold => "correction_threshold"
  | RollingData => "rolling_data"
  | RollingLimit => "rollingLimit"
  | SignificantFigure => "significant_figure"
  | ModelToTest => "model_to_test"
  end.

Definition boolean_backed (f : Field) : bool :=
  match f with
  | UseMedian | AcceptanceAbsolute | CorrectionAllow => true
  | _ => false
  end.

(** What a getter hands to the form control, by kind of field. *)
Definition shown (this : Props) (f : Field) (v : JsValue) : JsValue :=
  if boolean_backed f then
    if strict_eq v (JBool true) then selectTrue (languageText this)
    else selectFalse (languageText this)
  else v.

(** What a setter commits to the store, by kind of field. *)
Definition stored (this : Props) (f : Field) (v : JsValue) : JsValue :=
  if boolean_backed f then
    JBool (strict_eq v (selectTrue (languageText this)))
  else v.

(** One user edit: the control bound to [f] in the component instance
    [this] assigns [v] to the computed property. *)
Record UiSet : Type := {
  field : Field;
  this_ : Props;
  input : JsValue
}.

Definition ui_set (e : UiSet) : M unit :=
  set (computed (field e)) (this_ e) (input e).

Fixpoint ui_sets (es : list UiSet) : M unit :=
  match es with
  | [] => mret tt
  | e :: es' => ui_set e ≫= λ _, ui_sets es'
  end.

(** The store entry an edit addresses and the value it commits there. *)
Definition address (e : UiSet) : string * string :=
  (settingsName (this_ e), key (field e)).

Definition commits (e : UiSet) : JsValue :=
  stored (this_ e) (field e) (input e).

(** The value the latest edit of [es] addressing [a] commits, if any edit
    addresses [a]. *)
Fixpoint last_write (es : list UiSet) (a : string * string) : option JsValue :=
  match es with
  | [] => None
  | e :: es' =>
      match last_write es' a with
      | Some v => Some v
      | None => if decide (address e = a) then Some (commits e) else None
      end
  end.



(** * Properties *)

(** ** Strict equality *)
Section StrictEq.

Lemma strict_eq_sound (a b : JsValue) : strict_eq a b = true → a = b.
Proof.
  destruct a, b; simpl; try discriminate; try reflexivity; intros H.
  - apply Bool.eqb_prop in H. now subst.
  - apply Z.eqb_eq in H. now subst.
  - apply String.eqb_eq in H. now subst.
  - apply Pos.eqb_eq in H. now subst.
Qed.

Lemma strict_eq_neq (a b : JsValue) : a ≠ b → strict_eq a b = false.
Proof.
  intros Hne. destruct (strict_eq a b) eqn:E; [|reflexivity].
  destruct Hne. now apply strict_eq_sound.
Qed.

Lemma strict_eq_str (x y : string) :
  strict_eq (JStr x) (JStr y) = String.eqb x y.
Proof. reflexivity. Qed.

Lemma strict_eq_str_neq (x y : string) :
  x ≠ y → strict_eq (JStr x) (JStr y) = false.
Proof. intros Hne. simpl. now apply String.eqb_neq. Qed.

(** [v === true] holds for the boolean [true] alone. *)
Lemma strict_eq_true_iff (v : JsValue) :
  strict_eq v (JBool true) = true ↔ v = JBool true.
Proof.
  split; [apply strict_eq_sound|intros ->; reflexivity].
Qed.

End StrictEq.

Create HintDb convert.
#[local] Hint Unfold DataSetting.convertTrueFalse ProfileSetting.convertTrueFalse
  AdvancedSetting.convertTrueFalse : convert.

(** ** Label conversion *)

(** C1, as the code has it: with two distinct label strings, a boolean
    turned into its label by [convertTrueFalse(b)] and back by
    [convertTrueFalse(label, true)] is the boolean again, in [DataSetting]
    and in [ProfileSetting]. *)
Theorem convert_bool_round_trip (t f n : string) (b : bool) :
  t ≠ f →
  let this := {| languageText := labels t f; settingsName := n |} in
  DataSetting.convertTrueFalse this
    (DataSetting.convertTrueFalse this (JBool b) JUndefined) (JBool true)
  = JBool b
  ∧ ProfileSetting.convertTrueFalse this
      (ProfileSetting.convertTrueFalse this (JBool b) JUndefined) (JBool true)
    = JBool b.
Proof.
  intros Hne this.
  assert (Hft : strict_eq (JStr f) (JStr t) = false)
    by (apply strict_eq_str_neq; congruence).
  destruct b; cbn; split;
    first [ now rewrite String.eqb_refl | now rewrite <- strict_eq_str, Hft ].
Qed.

Lemma convert_bool_round_trip_witness :
  "Yes" ≠ "No"
  ∧ DataSetting.convertTrueFalse
      {| languageText := labels "Yes" "No"; settingsName := "profileA" |}
      (DataSetting.convertTrueFalse
         {| languageText := labels "Yes" "No"; settingsName := "profileA" |}
         (JBool false) JUndefined)
      (JBool true)
    = JBool false.
Proof.
  split; [discriminate|].
  apply (convert_bool_round_trip "Yes" "No" "profileA" false). discriminate.
Defined.

(** C1, as stated, fails when both labels are the same string: the label of
    [false] is then the "true" label and converts back to [true]. *)
Lemma convert_bool_round_trip_same_labels :
  DataSetting.convertTrueFalse
    {| languageText := labels "Yes" "Yes"; settingsName := "profileA" |}
    (DataSetting.convertTrueFalse
       {| languageText := labels "Yes" "Yes"; settingsName := "profileA" |}
       (JBool false) JUndefined)
    (JBool true)
  ≠ JBool false.
Proof. vm_compute. discriminate. Qed.

(** C2: [convertTrueFalse(v, true)] is [false] for every value [v] other
    than the "true" label, the empty string included; the function is total,
    so nothing is raised. *)
Theorem convert_other_label_false (this : Props) (v : JsValue) :
  v ≠ selectTrue (languageText this) →
  DataSetting.convertTrueFalse this v (JBool true) = JBool false.
Proof.
  intros Hne. unfold DataSetting.convertTrueFalse. simpl.
  now rewrite (strict_eq_neq _ _ Hne).
Qed.

Lemma convert_other_label_false_witness :
  JStr EmptyString ≠ selectTrue (labels "Yes" "No")
  ∧ DataSetting.convertTrueFalse
      {| languageText := labels "Yes" "No"; settingsName := "profileA" |}
      (JStr EmptyString) (JBool true)
    = JBool false.
Proof.
  split; [discriminate|].
  apply (convert_other_label_false
           {| languageText := labels "Yes" "No"; settingsName := "profileA" |}
           (JStr EmptyString)).
  discriminate.
Defined.

(** C6: with two label strings, [convertTrueFalse] maps between booleans
    and the two labels in both directions, in each of the three components:
    [convertTrueFalse(l, true)] of a label [l] is a boolean [b], and
    [convertTrueFalse(b)] is the label [l] again; every boolean has one of
    the two labels as its label, and [convertTrueFalse(v, true)] is a
    boolean for every value [v]. *)
Theorem convert_label_round_trip (t f n : string) (l : JsValue) :
  l = JStr t ∨ l = JStr f →
  let this := {| languageText := labels t f; settingsName := n |} in
  ((∃ b : bool,
      DataSetting.convertTrueFalse this l (JBool true) = JBool b
      ∧ DataSetting.convertTrueFalse this (JBool b) JUndefined = l)
   ∧ (∃ b : bool,
        ProfileSetting.convertTrueFalse this l (JBool true) = JBool b
        ∧ ProfileSetting.convertTrueFalse this (JBool b) JUndefined = l)
   ∧ (∃ b : bool,
        AdvancedSetting.convertTrueFalse this l (JBool true) = JBool b
        ∧ AdvancedSetting.convertTrueFalse this (JBool b) JUndefined = l))
  ∧ (∀ b : bool,
       DataSetting.convertTrueFalse this (JBool b) JUndefined
       = JStr (if b then t else f)
       ∧ ProfileSetting.convertTrueFalse this (JBool b) JUndefined
         = JStr (if b then t else f)
       ∧ AdvancedSetting.convertTrueFalse this (JBool b) JUndefined
         = JStr (if b then t else f))
  ∧ (∀ v : JsValue,
       DataSetting.convertTrueFalse this v (JBool true)
       = JBool (strict_eq v (JStr t))
       ∧ ProfileSetting.convertTrueFalse this v (JBool true)
         = JBool (strict_eq v (JStr t))
       ∧ AdvancedSetting.convertTrueFalse this v (JBool true)
         = JBool (strict_eq v (JStr t)))
  ∧ DataSetting.convertTrueFalse this
      (DataSetting.convertTrueFalse this l (JBool true)) JUndefined = l
  ∧ ProfileSetting.convertTrueFalse this
      (ProfileSetting.convertTrueFalse this l (JBool true)) JUndefined = l
  ∧ AdvancedSetting.convertTrueFalse this
      (AdvancedSetting.convertTrueFalse this l (JBool true)) JUndefined = l.
Proof.
  intros Hl this.
  assert (Hback : ∀ b : bool,
            (if Bool.eqb b true then JStr t else JStr f)
            = JStr (if b then t else f)) by now intros [].
  assert (Htrip : (if String.eqb f t then JStr t else JStr f) = JStr f).
  { destruct (String.eqb_spec f t) as [-> | _]; reflexivity. }
  split; [|split; [|split]].
  - destruct Hl as [-> | ->]; autounfold with convert; cbn;
      (split; [|split]); eexists; (split; [reflexivity|]);
      first [ now rewrite String.eqb_refl
            | destruct (String.eqb_spec f t) as [-> | _]; reflexivity ].
  - intros b. autounfold with convert. cbn. now rewrite Hback.
  - intros v. autounfold with convert. now cbn.
  - destruct Hl as [-> | ->]; autounfold with convert; cbn.
    + rewrite String.eqb_refl. now cbn.
    + destruct (String.eqb_spec f t) as [-> | _]; now cbn.
Qed.

Lemma convert_label_round_trip_witness :
  (JStr "No" = JStr "Yes" ∨ JStr "No" = JStr "No")
  ∧ ProfileSetting.convertTrueFalse
      {| languageText := labels "Yes" "No"; settingsName := "profileA" |}
      (JStr "No") (JBool true)
    = JBool false
  ∧ ProfileSetting.convertTrueFalse
      {| languageText := labels "Yes" "No"; settingsName := "profileA" |}
      (ProfileSetting.convertTrueFalse
         {| languageText := labels "Yes" "No"; settingsName := "profileA" |}
         (JStr "No") (JBool true))
      JUndefined
    = JStr "No".
Proof.
  assert (Hl : JStr "No" = JStr "Yes" ∨ JStr "No" = JStr "No") by now right.
  split; [exact Hl|].
  destruct (convert_label_round_trip "Yes" "No" "profileA" (JStr "No") Hl)
    as (_ & _ & Hbool & _ & Htrip & _).
  split; [exact (proj1 (proj2 (Hbool (JStr "No"))))|exact Htrip].
Defined.

(** C9: the three copies of [convertTrueFalse] agree on every value, every
    flag and every pair of labels. *)
Theorem convertTrueFalse_copies_agree (this : Props) (value toBool : JsValue) :
  DataSetting.convertTrueFalse this value toBool
  = ProfileSetting.convertTrueFalse this value toBool
  ∧ ProfileSetting.convertTrueFalse this value toBool
    = AdvancedSetting.convertTrueFalse this value toBool.
Proof.
  autounfold with convert.
  destruct (truthy toBool), (strict_eq value (JBool true)); split; reflexivity.
Qed.

(** ** Store access *)
Section Store.

Implicit Types (s : Store) (p : Payload) (f : Field) (this : Props).

Lemma getSettingsValue_run p s :
  getSettingsValue p s = (default JUndefined (s !! (name p, setting p)), s).
Proof. reflexivity. Qed.

Lemma setSettingsValue_run p s :
  setSettingsValue p s = (tt, <[(name p, setting p) := value p]> s).
Proof. reflexivity. Qed.

Lemma get_run f this s :
  get (computed f) this s
  = (shown this f (default JUndefined (s !! (settingsName this, key f))), s).
Proof. destruct f; reflexivity. Qed.

Lemma set_run f this (v : JsValue) s :
  set (computed f) this v s
  = (tt, <[(settingsName this, key f) := stored this f v]> s).
Proof. destruct f; reflexivity. Qed.





Lemma ui_sets_cons (e : UiSet) (es : list UiSet) s :
  exec (ui_sets (e :: es)) s = exec (ui_sets es) (exec (ui_set e) s).
Proof.
  unfold exec. cbn. unfold mbind, M_bind.
  now destruct (ui_set e s) as [[] s'].
Qed.

Lemma shown_not_blank f this s :
  boolean_backed f = true →
  blank (selectTrue (languageText this)) = false →
  blank (selectFalse (languageText this)) = false →
  blank (eval (get (computed f) this) s) = false.
Proof.
  intros Hf Ht Hfl. unfold eval. rewrite get_run. cbn. unfold shown.
  rewrite Hf. now destruct (strict_eq _ (JBool true)).
Qed.

End Store.

(** C8, as the code has it: in the label direction only the boolean [true]
    gives the "true" label; every other value, [undefined], [null], the
    string ["true"] and the number [1] among them, gives the "false" label.
    The getters of [use_median], [acceptance_absolute] and
    [correction_allow] therefore return one of the two labels whatever the
    store holds, and what they return is not blank when neither label is
    blank. *)
Theorem convert_non_true_is_false_label (this : Props) (v : JsValue) (s : Store) :
  DataSetting.convertTrueFalse this (JBool true) JUndefined
  = selectTrue (languageText this)
  ∧ (v ≠ JBool true →
     DataSetting.convertTrueFalse this v JUndefined
     = selectFalse (languageText this))
  ∧ DataSetting.convertTrueFalse this JUndefined JUndefined
    = selectFalse (languageText this)
  ∧ DataSetting.convertTrueFalse this JNull JUndefined
    = selectFalse (languageText this)
  ∧ DataSetting.convertTrueFalse this (JStr "true") JUndefined
    = selectFalse (languageText this)
  ∧ DataSetting.convertTrueFalse this (JNum 1) JUndefined
    = selectFalse (languageText this)
  ∧ (eval (get DataSetting.useMedian this) s = selectTrue (languageText this)
     ∨ eval (get DataSetting.useMedian this) s
       = selectFalse (languageText this))
  ∧ (eval (get ProfileSetting.acceptanceAbsolute this) s
     = selectTrue (languageText this)
     ∨ eval (get ProfileSetting.acceptanceAbsolute this) s
       = selectFalse (languageText this))
  ∧ (eval (get AdvancedSetting.correctionAllow this) s
     = selectTrue (languageText this)
     ∨ eval (get AdvancedSetting.correctionAllow this) s
       = selectFalse (languageText this))
  ∧ (blank (selectTrue (languageText this)) = false →
     blank (selectFalse (languageText this)) = false →
     blank (eval (get DataSetting.useMedian this) s) = false
     ∧ blank (eval (get ProfileSetting.acceptanceAbsolute this) s) = false
     ∧ blank (eval (get AdvancedSetting.correctionAllow this) s) = false).
Proof.
  assert (Hlabel : ∀ f, boolean_backed f = true →
            eval (get (computed f) this) s = selectTrue (languageText this)
            ∨ eval (get (computed f) this) s = selectFalse (languageText this)).
  { intros f Hf. unfold eval. rewrite get_run. cbn [fst]. unfold shown.
    rewrite Hf. destruct (strict_eq _ (JBool true)); [now left|now right]. }
  split; [reflexivity|]. split.
  { intros Hv. unfold DataSetting.convertTrueFalse. cbn.
    now rewrite (strict_eq_neq _ _ Hv). }
  do 4 (split; [reflexivity|]).
  split; [exact (Hlabel UseMedian eq_refl)|].
  split; [exact (Hlabel AcceptanceAbsolute eq_refl)|].
  split; [exact (Hlabel CorrectionAllow eq_refl)|].
  intros Ht Hf. split; [|split].
  - apply (shown_not_blank UseMedian); auto.
  - apply (shown_not_blank AcceptanceAbsolute); auto.
  - apply (shown_not_blank CorrectionAllow); auto.
Qed.

Lemma convert_non_true_is_false_label_witness :
  JUndefined ≠ JBool true
  ∧ blank (JStr "Yes") = false
  ∧ blank (JStr "No") = false
  ∧ DataSetting.convertTrueFalse
      {| languageText := labels "Yes" "No"; settingsName := "profileA" |}
      JUndefined JUndefined
    = JStr "No"
  ∧ blank (eval (get DataSetting.useMedian
                   {| languageText := labels "Yes" "No";
                      settingsName := "profileA" |}) ∅)
    = false.
Proof.
  assert (Hv : JUndefined ≠ JBool true) by discriminate.
  split; [exact Hv|]. split; [reflexivity|]. split; [reflexivity|].
  destruct (convert_non_true_is_false_label
              {| languageText := labels "Yes" "No";
                 settingsName := "profileA" |}
              JUndefined ∅)
    as (_ & Hlabel & _ & _ & _ & _ & _ & _ & _ & Hshown).
  split; [exact (Hlabel Hv)|exact (proj1 (Hshown eq_refl eq_refl))].
Defined.

(** C8, as stated, fails where a label is empty or missing: with the
    "false" label the empty string the [useMedian] getter returns the empty
    string on a store where [use_median] was never set, and with a language
    object that has neither label it returns [undefined]. *)
Lemma boolean_getter_blank_label :
  eval (get DataSetting.useMedian
          {| languageText := labels "Yes" EmptyString;
             settingsName := "profileA" |}) ∅
  = JStr EmptyString
  ∧ blank (eval (get DataSetting.useMedian
                   {| languageText := labels "Yes" EmptyString;
                      settingsName := "profileA" |}) ∅)
    = true
  ∧ eval (get DataSetting.useMedian
            {| languageText := {| selectTrue := JUndefined;
                                  selectFalse := JUndefined |};
               settingsName := "profileA" |})
         {[ ("profileA", "use_median") := JBool true ]}
    = JUndefined
  ∧ blank (eval (get DataSetting.useMedian
                   {| languageText := {| selectTrue := JUndefined;
                                         selectFalse := JUndefined |};
                      settingsName := "profileA" |})
                {[ ("profileA", "use_median") := JBool true ]})
    = true.
Proof. split; [|split; [|split]]; vm_compute; reflexivity. Qed.

(** C3: with the labels "Yes" and "No", after
    [set("profileA", "acceptance_absolute", true)] the store returns [true]
    for that pair and the [acceptanceAbsolute] getter of [ProfileSetting]
    returns "Yes", from every store state. *)
Theorem acceptance_absolute_scenario (s : Store) :
  let this := {| languageText := labels "Yes" "No";
                 settingsName := "profileA" |} in
  let s' := exec (setSettingsValue {| name := "profileA";
                                      setting := "acceptance_absolute";
                                      value := JBool true |}) s in
  eval (getSettingsValue {| name := "profileA";
                            setting := "acceptance_absolute";
                            value := JUndefined |}) s' = JBool true
  ∧ eval (get ProfileSetting.acceptanceAbsolute this) s' = JStr "Yes".
Proof.
  intros this s'. subst this s'. unfold eval, exec.
  rewrite setSettingsValue_run, getSettingsValue_run.
  change ProfileSetting.acceptanceAbsolute with (computed AcceptanceAbsolute).
  rewrite get_run. cbn. rewrite lookup_insert_eq. now split.
Qed.

(** C4, as the code has it: reading a pair that was never set returns
    [undefined] and leaves the store as it was; the getter of a plain field
    hands that [undefined] to its control, which is blank, and the getter of
    a label-converted field hands over the "false" label. *)
Theorem never_set_reads_undefined (f : Field) (this : Props) (s : Store) :
  s !! (settingsName this, key f) = None →
  getSettingsValue {| name := settingsName this;
                      setting := key f;
                      value := JUndefined |} s = (JUndefined, s)
  ∧ eval (get (computed f) this) s
    = (if boolean_backed f then selectFalse (languageText this)
       else JUndefined)
  ∧ blank (eval (get (computed f) this) s)
    = (if boolean_backed f then blank (selectFalse (languageText this))
       else true).
Proof.
  intros Hnone. rewrite getSettingsValue_run. cbn.
  unfold eval. rewrite get_run, Hnone. cbn. unfold shown.
  destruct (boolean_backed f); now repeat split.
Qed.

Lemma never_set_reads_undefined_witness :
  (∅ : Store) !! ("profileA", key DataTransformation) = None
  ∧ eval (get DataSetting.dataTransformation
            {| languageText := labels "Yes" "No";
               settingsName := "profileA" |}) ∅
    = JUndefined.
Proof.
  split; [reflexivity|].
  apply (never_set_reads_undefined DataTransformation
           {| languageText := labels "Yes" "No"; settingsName := "profileA" |}
           ∅).
  reflexivity.
Defined.

(** C4, as stated, fails on the label-converted fields: on a store where
    [use_median] was never set the [useMedian] getter returns the label
    "No", which is not blank. *)
Lemma never_set_boolean_not_blank :
  (∅ : Store) !! ("profileA", "use_median") = None
  ∧ eval (get DataSetting.useMedian
            {| languageText := labels "Yes" "No";
               settingsName := "profileA" |}) ∅
    = JStr "No"
  ∧ blank (eval (get DataSetting.useMedian
                   {| languageText := labels "Yes" "No";
                      settingsName := "profileA" |}) ∅)
    = false.
Proof. repeat split. Qed.

(** C5: a value written for a group and key is the value read back for
    them; through a component, a plain field reads back the value assigned
    and a label-converted field reads back the label of what was stored. *)
Theorem set_then_get (s : Store) (g k : string) (v : JsValue)
    (f : Field) (this : Props) :
  eval (setSettingsValue {| name := g; setting := k; value := v |}
          ≫= λ _, getSettingsValue {| name := g; setting := k;
                                      value := JUndefined |}) s
  = v
  ∧ eval (set DataSetting.dataTransformation this v
            ≫= λ _, get DataSetting.dataTransformation this) s
    = v
  ∧ eval (set ProfileSetting.toleranceLimit this v
            ≫= λ _, get ProfileSetting.toleranceLimit this) s
    = v
  ∧ eval (set (computed f) this v ≫= λ _, get (computed f) this) s
    = shown this f (stored this f v).
Proof.
  assert (Hpair : ∀ f', eval (set (computed f') this v
                               ≫= λ _, get (computed f') this) s
                        = shown this f' (stored this f' v)).
  { intros f'. unfold eval, mbind, M_bind. rewrite set_run, get_run.
    cbn. now rewrite lookup_insert_eq. }
  split; [|split; [|split]].
  - unfold eval, mbind, M_bind. cbn. now rewrite lookup_insert_eq.
  - exact (Hpair DataTransformation).
  - exact (Hpair ToleranceLimit).
  - exact (Hpair f).
Qed.

(** C7: reading a setting, from the store or through the getter of any
    field of any component, leaves every entry of the store as it was. *)
Theorem get_leaves_store (s : Store) (p : Payload) (f : Field) (this : Props) :
  exec (getSettingsValue p) s = s
  ∧ exec (get ProfileSetting.acceptanceLimit this) s = s
  ∧ exec (get AdvancedSetting.correctionForcedValue this) s = s
  ∧ exec (get (computed f) this) s = s
  ∧ ∀ g k : string, exec (get (computed f) this) s !! (g, k) = s !! (g, k).
Proof.
  assert (Hget : ∀ f', exec (get (computed f') this) s = s)
    by (intros f'; unfold exec; now rewrite get_run).
  split; [|split; [|split; [|split]]].
  - reflexivity.
  - exact (Hget AcceptanceLimit).
  - exact (Hget CorrectionForcedValue).
  - exact (Hget f).
  - intros g k. now rewrite Hget.
Qed.



(** * Further properties of the components *)

(** ** One field, one entry *)
Section Fields.

Implicit Types (s : Store) (f : Field) (this : Props) (v : JsValue).

Lemma key_inj f f' : key f = key f' → f = f'.
Proof. destruct f, f'; first [reflexivity | discriminate]. Qed.

Lemma entry_ne f f' this this' :
  settingsName this ≠ settingsName this' ∨ f ≠ f' →
  (settingsName this, key f) ≠ (settingsName this', key f').
Proof.
  intros [Hg | Hf] [= Hn Hk]; [now apply Hg|].
  apply Hf. now apply key_inj.
Qed.

Ltac entry_ne H :=
  let E := fresh in
  intros E; apply (entry_ne _ _ _ _ H); congruence.

Lemma exec_set f this v s :
  exec (set (computed f) this v) s
  = <[(settingsName this, key f) := stored this f v]> s.
Proof. unfold exec. now rewrite set_run. Qed.

Lemma eval_get f this s :
  eval (get (computed f) this) s
  = shown this f (default JUndefined (s !! (settingsName this, key f))).
Proof. unfold eval. now rewrite get_run. Qed.

Lemma exec_bind {A B} (m : M A) (k : A → M B) s :
  exec (m ≫= k) s = exec (k (eval m s)) (exec m s).
Proof. unfold exec, eval, mbind, M_bind. now destruct (m s). Qed.

Lemma eval_bind {A B} (m : M A) (k : A → M B) s :
  eval (m ≫= k) s = eval (k (eval m s)) (exec m s).
Proof. unfold exec, eval, mbind, M_bind. now destruct (m s). Qed.

Lemma exec_get f this s : exec (get (computed f) this) s = s.
Proof. unfold exec. now rewrite get_run. Qed.

(** No two fields of the three components share a store entry: an
    assignment to one field, in one group, is not seen by the getter of any
    other field or of the same field in another group. *)
Theorem set_unseen_by_other_fields f f' this this' v s :
  settingsName this ≠ settingsName this' ∨ f ≠ f' →
  eval (get (computed f') this') (exec (set (computed f) this v) s)
  = eval (get (computed f') this') s.
Proof.
  intros Hne. rewrite !eval_get, exec_set.
  rewrite lookup_insert_ne; [reflexivity|entry_ne Hne].
Qed.

Lemma set_unseen_by_other_fields_witness :
  ("profileA" ≠ "profileA" ∨ RollingLimit ≠ RollingData)
  ∧ eval (get AdvancedSetting.rollingData
            {| languageText := labels "Yes" "No"; settingsName := "profileA" |})
         (exec (set AdvancedSetting.rollingLimit
                  {| languageText := labels "Yes" "No";
                     settingsName := "profileA" |}
                  (JNum 7))
               {[ ("profileA", "rolling_data") := JNum 3 ]})
    = JNum 3.
Proof.
  assert (H : "profileA" ≠ "profileA" ∨ RollingLimit ≠ RollingData)
    by (right; discriminate).
  split; [exact H|].
  exact (set_unseen_by_other_fields RollingLimit RollingData
           {| languageText := labels "Yes" "No"; settingsName := "profileA" |}
           {| languageText := labels "Yes" "No"; settingsName := "profileA" |}
           (JNum 7) {[ ("profileA", "rolling_data") := JNum 3 ]} H).
Defined.

(** Assignments to two different fields, or to fields of two different
    groups, leave the same store in either order. *)
Theorem sets_commute f f' this this' v v' s :
  settingsName this ≠ settingsName this' ∨ f ≠ f' →
  exec (set (computed f) this v ≫= λ _, set (computed f') this' v') s
  = exec (set (computed f') this' v' ≫= λ _, set (computed f) this v) s.
Proof.
  intros Hne. rewrite !exec_bind, !exec_set.
  apply insert_insert_ne. entry_ne Hne.
Qed.

Lemma sets_commute_witness :
  ("profileA" ≠ "profileB" ∨ UseMedian ≠ UseMedian)
  ∧ exec (set DataSetting.useMedian
            {| languageText := labels "Yes" "No"; settingsName := "profileA" |}
            (JStr "Yes")
          ≫= λ _, set DataSetting.useMedian
                    {| languageText := labels "Oui" "Non";
                       settingsName := "profileB" |}
                    (JStr "Non")) ∅
    = exec (set DataSetting.useMedian
              {| languageText := labels "Oui" "Non";
                 settingsName := "profileB" |}
              (JStr "Non")
            ≫= λ _, set DataSetting.useMedian
                      {| languageText := labels "Yes" "No";
                         settingsName := "profileA" |}
                      (JStr "Yes")) ∅.
Proof.
  assert (H : "profileA" ≠ "profileB" ∨ UseMedian ≠ UseMedian)
    by (left; discriminate).
  split; [exact H|].
  exact (sets_commute UseMedian UseMedian
           {| languageText := labels "Yes" "No"; settingsName := "profileA" |}
           {| languageText := labels "Oui" "Non"; settingsName := "profileB" |}
           (JStr "Yes") (JStr "Non") ∅ H).
Defined.

(** Of two assignments to the same field of the same group, through
    whichever component instances, only the second is left in the store. *)
Theorem set_twice_last_wins f this this' v v' s :
  settingsName this = settingsName this' →
  exec (set (computed f) this v ≫= λ _, set (computed f) this' v') s
  = exec (set (computed f) this' v') s.
Proof.
  intros Hg. rewrite exec_bind, !exec_set, Hg. apply insert_insert_eq.
Qed.

Lemma set_twice_last_wins_witness :
  "profileA" = "profileA"
  ∧ exec (set ProfileSetting.acceptanceAbsolute
            {| languageText := labels "Yes" "No"; settingsName := "profileA" |}
            (JStr "Yes")
          ≫= λ _, set ProfileSetting.acceptanceAbsolute
                    {| languageText := labels "Oui" "Non";
                       settingsName := "profileA" |}
                    (JStr "Non")) ∅
    = exec (set ProfileSetting.acceptanceAbsolute
              {| languageText := labels "Oui" "Non";
                 settingsName := "profileA" |}
              (JStr "Non")) ∅.
Proof.
  split; [reflexivity|].
  exact (set_twice_last_wins AcceptanceAbsolute
           {| languageText := labels "Yes" "No"; settingsName := "profileA" |}
           {| languageText := labels "Oui" "Non"; settingsName := "profileA" |}
           (JStr "Yes") (JStr "Non") ∅ eq_refl).
Defined.

(** ** The two items of a select

    [itemsTrueFalse] feeds the [v-select] bound to each label-converted
    field. *)

(** Whatever the store holds and whatever the labels are, the getters of
    [useMedian], [acceptanceAbsolute] and [correctionAllow] return one of
    the items offered by [itemsTrueFalse]. *)
Theorem boolean_getters_show_an_item this s :
  eval (get DataSetting.useMedian this) s ∈ DataSetting.itemsTrueFalse this
  ∧ eval (get ProfileSetting.acceptanceAbsolute this) s
    ∈ ProfileSetting.itemsTrueFalse this
  ∧ eval (get AdvancedSetting.correctionAllow this) s
    ∈ AdvancedSetting.itemsTrueFalse this.
Proof.
  assert (Hin : ∀ f, boolean_backed f = true →
            eval (get (computed f) this) s
            ∈ [selectTrue (languageText this); selectFalse (languageText this)]).
  { intros f Hf. rewrite eval_get. unfold shown. rewrite Hf.
    destruct (strict_eq _ (JBool true)).
    - apply list_elem_of_here.
    - apply list_elem_of_further, list_elem_of_here. }
  split; [|split].
  - exact (Hin UseMedian eq_refl).
  - exact (Hin AcceptanceAbsolute eq_refl).
  - exact (Hin CorrectionAllow eq_refl).
Qed.

Lemma item_cases (t fl n : string) (item : JsValue) :
  item ∈ DataSetting.itemsTrueFalse
           {| languageText := labels t fl; settingsName := n |} →
  item = JStr t ∨ item = JStr fl.
Proof.
  unfold DataSetting.itemsTrueFalse. cbn. intros Hin.
  apply list_elem_of_In in Hin. cbn in Hin. intuition auto.
Qed.

Lemma shown_stored_item f (t fl n : string) (item : JsValue) :
  boolean_backed f = true →
  item = JStr t ∨ item = JStr fl →
  shown {| languageText := labels t fl; settingsName := n |} f
    (stored {| languageText := labels t fl; settingsName := n |} f item)
  = item.
Proof.
  intros Hf Hitem. unfold shown, stored. rewrite Hf. cbn.
  destruct Hitem as [-> | ->]; cbn.
  - now rewrite String.eqb_refl.
  - destruct (String.eqb_spec fl t) as [-> | Hne]; now cbn.
Qed.

(** With two label strings, assigning an item of [itemsTrueFalse] to a
    label-converted field and reading the field gives that item again, also
    when the two labels are the same string. *)
Theorem select_item_round_trip (t fl n : string) (item : JsValue) s :
  item ∈ DataSetting.itemsTrueFalse
           {| languageText := labels t fl; settingsName := n |} →
  let this := {| languageText := labels t fl; settingsName := n |} in
  eval (set DataSetting.useMedian this item
          ≫= λ _, get DataSetting.useMedian this) s = item
  ∧ eval (set ProfileSetting.acceptanceAbsolute this item
            ≫= λ _, get ProfileSetting.acceptanceAbsolute this) s = item
  ∧ eval (set AdvancedSetting.correctionAllow this item
            ≫= λ _, get AdvancedSetting.correctionAllow this) s = item.
Proof.
  intros Hin this. apply item_cases in Hin.
  assert (Hrt : ∀ f, boolean_backed f = true →
            eval (set (computed f) this item ≫= λ _, get (computed f) this) s
            = item).
  { intros f Hf. rewrite eval_bind, eval_get, exec_set, lookup_insert_eq.
    cbn [default]. now apply shown_stored_item. }
  split; [|split].
  - exact (Hrt UseMedian eq_refl).
  - exact (Hrt AcceptanceAbsolute eq_refl).
  - exact (Hrt CorrectionAllow eq_refl).
Qed.

Lemma select_item_round_trip_witness :
  JStr "No" ∈ DataSetting.itemsTrueFalse
                {| languageText := labels "Yes" "No";
                   settingsName := "profileA" |}
  ∧ eval (set DataSetting.useMedian
            {| languageText := labels "Yes" "No"; settingsName := "profileA" |}
            (JStr "No")
          ≫= λ _, get DataSetting.useMedian
                    {| languageText := labels "Yes" "No";
                       settingsName := "profileA" |})
         {[ ("profileA", "use_median") := JBool true ]}
    = JStr "No".
Proof.
  assert (Hin : JStr "No" ∈ DataSetting.itemsTrueFalse
                  {| languageText := labels "Yes" "No";
                     settingsName := "profileA" |})
    by (apply list_elem_of_further, list_elem_of_here).
  split; [exact Hin|].
  exact (proj1 (select_item_round_trip "Yes" "No" "profileA" (JStr "No")
                  {[ ("profileA", "use_median") := JBool true ]} Hin)).
Defined.

(** What is stored is the boolean, not the label: a label-converted field
    assigned the "true" or the "false" label of one component instance is
    shown with the corresponding label of any other instance of the same
    group, whatever labels that one has. *)
Theorem stored_boolean_shown_in_other_labels
    f (t fl : string) this this' (b : bool) s :
  boolean_backed f = true →
  t ≠ fl →
  languageText this = labels t fl →
  settingsName this = settingsName this' →
  eval (get (computed f) this')
       (exec (set (computed f) this (JStr (if b then t else fl))) s)
  = (if b then selectTrue (languageText this')
     else selectFalse (languageText this')).
Proof.
  intros Hf Hne Hl Hg.
  rewrite eval_get, exec_set, Hg, lookup_insert_eq. cbn [default].
  unfold shown, stored. rewrite Hf, Hl. cbn.
  destruct b.
  - now rewrite String.eqb_refl.
  - assert (Hft : String.eqb fl t = false)
      by (apply String.eqb_neq; congruence).
    now rewrite Hft.
Qed.

Lemma stored_boolean_shown_in_other_labels_witness :
  boolean_backed CorrectionAllow = true
  ∧ "Yes" ≠ "No"
  ∧ eval (get AdvancedSetting.correctionAllow
            {| languageText := labels "Oui" "Non";
               settingsName := "profileA" |})
         (exec (set AdvancedSetting.correctionAllow
                  {| languageText := labels "Yes" "No";
                     settingsName := "profileA" |}
                  (JStr "No")) ∅)
    = JStr "Non".
Proof.
  assert (Hne : "Yes" ≠ "No") by discriminate.
  split; [reflexivity|]. split; [exact Hne|].
  exact (stored_boolean_shown_in_other_labels CorrectionAllow "Yes" "No"
           {| languageText := labels "Yes" "No"; settingsName := "profileA" |}
           {| languageText := labels "Oui" "Non"; settingsName := "profileA" |}
           false ∅ eq_refl Hne eq_refl eq_refl).
Defined.

End Fields.

(** ** Assigning a field what it shows *)
Section WriteBack.

Implicit Types (s : Store) (f : Field) (this : Props) (v : JsValue).

Lemma exec_write_back f this s :
  exec (get (computed f) this ≫= λ v, set (computed f) this v) s
  = <[(settingsName this, key f) :=
        stored this f
          (shown this f
             (default JUndefined (s !! (settingsName this, key f))))]> s.
Proof. now rewrite exec_bind, exec_get, eval_get, exec_set. Qed.

(** A plain field whose entry is present can be assigned the value its
    getter returns without any change to the store. *)
Theorem plain_write_back_keeps_store f this s :
  boolean_backed f = false →
  is_Some (s !! (settingsName this, key f)) →
  exec (get (computed f) this ≫= λ v, set (computed f) this v) s = s.
Proof.
  intros Hf [v Hv]. rewrite exec_write_back, Hv. cbn [default].
  unfold stored, shown. rewrite Hf. now apply insert_id.
Qed.

Lemma plain_write_back_keeps_store_witness :
  boolean_backed ModelToTest = false
  ∧ is_Some (({[ ("profileA", "model_to_test") := JStr "Linear" ]} : Store)
             !! ("profileA", key ModelToTest))
  ∧ exec (get AdvancedSetting.modelToTest
            {| languageText := labels "Yes" "No"; settingsName := "profileA" |}
          ≫= λ v, set AdvancedSetting.modelToTest
                    {| languageText := labels "Yes" "No";
                       settingsName := "profileA" |} v)
         {[ ("profileA", "model_to_test") := JStr "Linear" ]}
    = {[ ("profileA", "model_to_test") := JStr "Linear" ]}.
Proof.
  assert (Hsome : is_Some
            (({[ ("profileA", "model_to_test") := JStr "Linear" ]} : Store)
             !! ("profileA", key ModelToTest)))
    by (exists (JStr "Linear"); reflexivity).
  split; [reflexivity|]. split; [exact Hsome|].
  exact (plain_write_back_keeps_store ModelToTest
           {| languageText := labels "Yes" "No"; settingsName := "profileA" |}
           {[ ("profileA", "model_to_test") := JStr "Linear" ]}
           eq_refl Hsome).
Defined.

(** A label-converted field whose entry holds a boolean can, with two
    distinct label strings, be assigned the label its getter returns without
    any change to the store. *)
Theorem boolean_write_back_keeps_store f (t fl : string) this (b : bool) s :
  boolean_backed f = true →
  t ≠ fl →
  languageText this = labels t fl →
  s !! (settingsName this, key f) = Some (JBool b) →
  exec (get (computed f) this ≫= λ v, set (computed f) this v) s = s.
Proof.
  intros Hf Hne Hl Hb. rewrite exec_write_back, Hb. cbn [default].
  apply insert_id. rewrite Hb. f_equal.
  unfold stored, shown. rewrite Hf, Hl. cbn.
  assert (Hft : String.eqb fl t = false)
    by (apply String.eqb_neq; congruence).
  destruct b; cbn; [now rewrite String.eqb_refl|now rewrite Hft].
Qed.

Lemma boolean_write_back_keeps_store_witness :
  boolean_backed UseMedian = true
  ∧ "Yes" ≠ "No"
  ∧ exec (get DataSetting.useMedian
            {| languageText := labels "Yes" "No"; settingsName := "profileA" |}
          ≫= λ v, set DataSetting.useMedian
                    {| languageText := labels "Yes" "No";
                       settingsName := "profileA" |} v)
         {[ ("profileA", "use_median") := JBool false ]}
    = {[ ("profileA", "use_median") := JBool false ]}.
Proof.
  assert (Hne : "Yes" ≠ "No") by discriminate.
  split; [reflexivity|]. split; [exact Hne|].
  exact (boolean_write_back_keeps_store UseMedian "Yes" "No"
           {| languageText := labels "Yes" "No"; settingsName := "profileA" |}
           false {[ ("profileA", "use_median") := JBool false ]}
           eq_refl Hne eq_refl eq_refl).
Defined.

(** On an entry that holds something other than a boolean, assigning a
    label-converted field the label it shows replaces the entry by a
    boolean: the content is lost, as it is for the string ["true"]. *)
Theorem boolean_write_back_overwrites f (t fl : string) this v s :
  boolean_backed f = true →
  t ≠ fl →
  languageText this = labels t fl →
  is_bool v = false →
  s !! (settingsName this, key f) = Some v →
  exec (get (computed f) this ≫= λ w, set (computed f) this w) s
    !! (settingsName this, key f)
  = Some (JBool false).
Proof.
  intros Hf Hne Hl Hv Hs. rewrite exec_write_back, Hs, lookup_insert_eq.
  cbn [default]. f_equal. unfold stored, shown. rewrite Hf, Hl. cbn.
  assert (Hnt : strict_eq v (JBool true) = false) by now destruct v.
  rewrite Hnt. cbn. f_equal. apply String.eqb_neq. congruence.
Qed.

Lemma boolean_write_back_overwrites_witness :
  boolean_backed UseMedian = true
  ∧ "Yes" ≠ "No"
  ∧ is_bool (JStr "true") = false
  ∧ exec (get DataSetting.useMedian
            {| languageText := labels "Yes" "No"; settingsName := "profileA" |}
          ≫= λ w, set DataSetting.useMedian
                    {| languageText := labels "Yes" "No";
                       settingsName := "profileA" |} w)
         {[ ("profileA", "use_median") := JStr "true" ]}
      !! ("profileA", "use_median")
    = Some (JBool false).
Proof.
  assert (Hne : "Yes" ≠ "No") by discriminate.
  split; [reflexivity|]. split; [exact Hne|]. split; [reflexivity|].
  exact (boolean_write_back_overwrites UseMedian "Yes" "No"
           {| languageText := labels "Yes" "No"; settingsName := "profileA" |}
           (JStr "true") {[ ("profileA", "use_median") := JStr "true" ]}
           eq_refl Hne eq_refl eq_refl eq_refl).
Defined.

(** On a pair that was never set, assigning a field what its getter returns
    creates the entry: it holds [undefined] for a plain field and, for a
    label-converted field, the boolean [selectFalse === selectTrue]. *)
Theorem write_back_creates_entry f this s :
  s !! (settingsName this, key f) = None →
  exec (get (computed f) this ≫= λ v, set (computed f) this v) s
    !! (settingsName this, key f)
  = Some (if boolean_backed f then
            JBool (strict_eq (selectFalse (languageText this))
                     (selectTrue (languageText this)))
          else JUndefined).
Proof.
  intros Hs. rewrite exec_write_back, Hs, lookup_insert_eq. cbn [default].
  unfold stored, shown. now destruct (boolean_backed f).
Qed.

Lemma write_back_creates_entry_witness :
  (∅ : Store) !! ("profileA", key AcceptanceAbsolute) = None
  ∧ exec (get ProfileSetting.acceptanceAbsolute
            {| languageText := labels "Yes" "No"; settingsName := "profileA" |}
          ≫= λ v, set ProfileSetting.acceptanceAbsolute
                    {| languageText := labels "Yes" "No";
                       settingsName := "profileA" |} v) ∅
      !! ("profileA", "acceptance_absolute")
    = Some (JBool false).
Proof.
  split; [reflexivity|].
  exact (write_back_creates_entry AcceptanceAbsolute
           {| languageText := labels "Yes" "No"; settingsName := "profileA" |}
           ∅ eq_refl).
Defined.

(** ** A language object without the two labels *)

(** When [languageText] has neither [selectTrue] nor [selectFalse], both
    read [undefined]: the getter of a label-converted field then returns
    [undefined] whatever the store holds, and its setter stores [false] for
    every defined input and [true] for [undefined]. *)
Theorem missing_labels f this v s :
  boolean_backed f = true →
  selectTrue (languageText this) = JUndefined →
  selectFalse (languageText this) = JUndefined →
  v ≠ JUndefined →
  eval (get (computed f) this) s = JUndefined
  ∧ exec (set (computed f) this v) s !! (settingsName this, key f)
    = Some (JBool false)
  ∧ exec (set (computed f) this JUndefined) s !! (settingsName this, key f)
    = Some (JBool true).
Proof.
  intros Hf Ht Hfl Hv. rewrite eval_get, !exec_set, !lookup_insert_eq.
  unfold shown, stored. rewrite Hf, Ht, Hfl.
  split; [now destruct (strict_eq _ (JBool true))|].
  split; [|reflexivity]. now destruct v.
Qed.

Lemma missing_labels_witness :
  boolean_backed CorrectionAllow = true
  ∧ JStr "Yes" ≠ JUndefined
  ∧ eval (get AdvancedSetting.correctionAllow
            {| languageText := {| selectTrue := JUndefined;
                                  selectFalse := JUndefined |};
               settingsName := "profileA" |})
         {[ ("profileA", "correction_allow") := JBool true ]}
    = JUndefined.
Proof.
  assert (Hv : JStr "Yes" ≠ JUndefined) by discriminate.
  split; [reflexivity|]. split; [exact Hv|].
  exact (proj1 (missing_labels CorrectionAllow
                  {| languageText := {| selectTrue := JUndefined;
                                        selectFalse := JUndefined |};
                     settingsName := "profileA" |}
                  (JStr "Yes")
                  {[ ("profileA", "correction_allow") := JBool true ]}
                  eq_refl eq_refl eq_refl Hv)).
Defined.

End WriteBack.

(** ** Sequences of edits *)
Section Edits.

Implicit Types (s : Store) (e : UiSet) (es : list UiSet) (a : string * string).

Lemma exec_ui_set e s : exec (ui_set e) s = <[address e := commits e]> s.
Proof. unfold ui_set, address, commits. apply exec_set. Qed.

(** Running one sequence of edits after another is running their
    concatenation. *)
Lemma ui_sets_app es es' s :
  exec (ui_sets (es ++ es')) s = exec (ui_sets es') (exec (ui_sets es) s).
Proof.
  revert s. induction es as [|e es IH]; intros s.
  - reflexivity.
  - cbn [app]. now rewrite !ui_sets_cons, IH.
Qed.

Lemma ui_sets_snoc es e s :
  exec (ui_sets (es ++ [e])) s = <[address e := commits e]> (exec (ui_sets es) s).
Proof.
  revert s. induction es as [|e' es IH]; intros s.
  - cbn [app]. rewrite ui_sets_cons. cbn. apply exec_ui_set.
  - cbn [app]. now rewrite !ui_sets_cons, IH.
Qed.

(** After a sequence of edits every entry holds what the latest edit
    addressing it committed, and what it held before when no edit
    addresses it. *)
Theorem ui_sets_lookup es s a :
  exec (ui_sets es) s !! a
  = match last_write es a with
    | Some v => Some v
    | None => s !! a
    end.
Proof.
  revert s. induction es as [|e es IH]; intros s.
  - reflexivity.
  - rewrite ui_sets_cons, IH. cbn [last_write].
    destruct (last_write es a) as [v|]; [reflexivity|].
    rewrite exec_ui_set. destruct (decide (address e = a)) as [<- | Hne].
    + apply lookup_insert_eq.
    + now apply lookup_insert_ne.
Qed.

Lemma ui_sets_unaddressed es s a :
  (∀ e, e ∈ es → address e ≠ a) → exec (ui_sets es) s !! a = s !! a.
Proof.
  revert s. induction es as [|e es IH]; intros s Hes; [reflexivity|].
  rewrite ui_sets_cons, IH.
  - rewrite exec_ui_set. apply lookup_insert_ne, Hes, list_elem_of_here.
  - intros e' He'. apply Hes. now apply list_elem_of_further.
Qed.

(** Edits made in other groups leave every entry of a group as it was. *)
Theorem ui_sets_other_groups_untouched es s (g k : string) :
  (∀ e, e ∈ es → settingsName (this_ e) ≠ g) →
  exec (ui_sets es) s !! (g, k) = s !! (g, k).
Proof.
  intros Hes. apply ui_sets_unaddressed.
  intros e He [= Hg _]. now apply (Hes e).
Qed.

Lemma ui_sets_other_groups_untouched_witness :
  (∀ e, e ∈ [ {| field := UseMedian;
                 this_ := {| languageText := labels "Yes" "No";
                             settingsName := "profileB" |};
                 input := JStr "Yes" |} ] →
        settingsName (this_ e) ≠ "profileA")
  ∧ exec (ui_sets [ {| field := UseMedian;
                       this_ := {| languageText := labels "Yes" "No";
                                   settingsName := "profileB" |};
                       input := JStr "Yes" |} ])
         {[ ("profileA", "use_median") := JBool false ]}
      !! ("profileA", "use_median")
    = Some (JBool false).
Proof.
  assert (H : ∀ e, e ∈ [ {| field := UseMedian;
                            this_ := {| languageText := labels "Yes" "No";
                                        settingsName := "profileB" |};
                            input := JStr "Yes" |} ] →
                   settingsName (this_ e) ≠ "profileA").
  { intros e He. apply list_elem_of_singleton in He. subst e. discriminate. }
  split; [exact H|].
  rewrite (ui_sets_other_groups_untouched _
             {[ ("profileA", "use_median") := JBool false ]}
             "profileA" "use_median" H).
  reflexivity.
Defined.

(** No edit touches an entry whose key is not the key of one of the
    thirteen fields; [rolling_limit] is such a key, the [rollingLimit]
    field addressing [rollingLimit]. *)
Theorem ui_sets_foreign_keys_untouched es s (g k : string) :
  (∀ f, key f ≠ k) →
  exec (ui_sets es) s !! (g, k) = s !! (g, k).
Proof.
  intros Hk. apply ui_sets_unaddressed.
  intros e _ [= _ Hkey]. now apply (Hk (field e)).
Qed.

Lemma ui_sets_foreign_keys_untouched_witness :
  (∀ f, key f ≠ "rolling_limit")
  ∧ exec (ui_sets [ {| field := RollingLimit;
                       this_ := {| languageText := labels "Yes" "No";
                                   settingsName := "profileA" |};
                       input := JNum 12 |} ])
         {[ ("profileA", "rolling_limit") := JNum 5 ]}
      !! ("profileA", "rolling_limit")
    = Some (JNum 5).
Proof.
  assert (H : ∀ f, key f ≠ "rolling_limit") by (intros f; now destruct f).
  split; [exact H|].
  rewrite (ui_sets_foreign_keys_untouched _
             {[ ("profileA", "rolling_limit") := JNum 5 ]}
             "profileA" "rolling_limit" H).
  reflexivity.
Defined.

(** Edits never remove an entry, and the entries they create are exactly
    the ones they address. *)
Theorem ui_sets_dom es s :
  dom (exec (ui_sets es) s) = dom s ∪ list_to_set (address <$> es).
Proof.
  revert s. induction es as [|e es IH]; intros s.
  - cbn. unfold exec. cbn. now rewrite (right_id_L ∅ (∪)).
  - rewrite ui_sets_cons, IH, exec_ui_set, dom_insert_L. cbn.
    rewrite (comm_L (∪) {[address e]} (dom s)).
    now rewrite (assoc_L (∪)).
Qed.

(** An entry under [use_median], [acceptance_absolute] or
    [correction_allow] that some edit of a sequence addresses holds a
    boolean afterwards, whatever it held before. *)
Theorem ui_sets_edited_boolean_entry es s e :
  e ∈ es →
  boolean_backed (field e) = true →
  ∃ b : bool, exec (ui_sets es) s !! address e = Some (JBool b).
Proof.
  intros He Hf. revert He.
  induction es as [|e' es IH] using rev_ind;
    [intros He; now apply elem_of_nil in He|].
  rewrite ui_sets_snoc. intros He.
  destruct (decide (address e' = address e)) as [Heq | Hne].
  - (* the last edit addresses the entry: it is an edit of the same field *)
    rewrite Heq, lookup_insert_eq. injection Heq as _ Hkey.
    apply key_inj in Hkey. unfold commits, stored. rewrite Hkey, Hf. eauto.
  - rewrite lookup_insert_ne by exact Hne. apply IH.
    apply elem_of_app in He as [Hin | Hlast]; [exact Hin|].
    apply list_elem_of_singleton in Hlast. now subst e'.
Qed.

Lemma ui_sets_edited_boolean_entry_witness :
  {| field := UseMedian;
     this_ := {| languageText := labels "Yes" "No";
                 settingsName := "profileA" |};
     input := JStr "Yes" |}
  ∈ [ {| field := UseMedian;
         this_ := {| languageText := labels "Yes" "No";
                     settingsName := "profileA" |};
         input := JStr "Yes" |} ]
  ∧ ∃ b : bool,
      exec (ui_sets [ {| field := UseMedian;
                         this_ := {| languageText := labels "Yes" "No";
                                     settingsName := "profileA" |};
                         input := JStr "Yes" |} ])
           {[ ("profileA", "use_median") := JStr "true" ]}
        !! ("profileA", "use_median")
      = Some (JBool b).
Proof.
  assert (Hin : {| field := UseMedian;
                   this_ := {| languageText := labels "Yes" "No";
                               settingsName := "profileA" |};
                   input := JStr "Yes" |}
                ∈ [ {| field := UseMedian;
                       this_ := {| languageText := labels "Yes" "No";
                                   settingsName := "profileA" |};
                       input := JStr "Yes" |} ])
    by apply list_elem_of_here.
  split; [exact Hin|].
  exact (ui_sets_edited_boolean_entry _
           {[ ("profileA", "use_median") := JStr "true" ]} _ Hin eq_refl).
Defined.

End Edits.
